(** * A shallow embedding of [language_models/trainer.py]

    The Python trainer is modelled as explicit state passing over a record
    [trainer] holding the attributes of [self] together with the pieces of the
    outside world the trainer touches (the directories of the file system and
    a trace of observable effects: model invocations, gradient steps, files
    written and log lines).  Exceptions are the constructors of [py_error];
    a computation that raises keeps the state reached so far, as Python
    keeps the mutations performed before the [raise].

    The external collaborators (the [LM] network's forward pass, the
    [nn.NLLLoss] criterion object and [np.random.random]) are Section
    variables: every theorem holds for all of them. *)

From Stdlib Require Import ZArith Reals Ascii String List Bool Lia Lra.
Import ListNotations.

Module Trainer.

(** ** Python values and errors *)

Inductive py_error :=
| TypeError            (* e.g. [None[...]], [str & tuple], [raise "..."] *)
| AttributeError       (* e.g. [None.zero_grad] *)
| IndexError
| UnboundLocalError
| ZeroDivisionError
| ValueError.          (* tuple unpacking of a batch of the wrong shape *)

Inductive result (A : Type) :=
| Ok (a : A)
| Err (e : py_error).
Arguments Ok {A} a.
Arguments Err {A} e.

Definition rbind {A B} (r : result A) (k : A -> result B) : result B :=
  match r with Ok a => k a | Err e => Err e end.

Notation "x <-- r ;; k" := (rbind r (fun x => k))
  (at level 61, r at next level, right associativity).

(** [xs[i]] for a non-negative index. *)
Definition index {A} (xs : list A) (i : nat) : result A :=
  match nth_error xs i with Some x => Ok x | None => Err IndexError end.

(** ** Tensors used by the loss

    [outputs] is indexed [outputs[t][b][v]] (timestep, example, vocabulary
    entry); [targets] is indexed [targets[b, t]] (example, timestep). *)

Definition seqs := list (list Z).
Definition reviews := list seqs.
Definition outputs := list (list (list R)).

(** The criterion object: called on the selected rows and their targets. *)
Definition criterion_t := list (list R) -> list Z -> R.

(** [l > 0] on a numpy integer array. *)
Definition gt0_mask (l : list Z) : list bool := map (fun x => Z.gtb x 0) l.

(** Boolean-mask indexing [x[mask]] along the first dimension; torch raises
    [IndexError] when the mask does not have the dimension's size. *)
Fixpoint select {A} (m : list bool) (xs : list A) : result (list A) :=
  match m, xs with
  | [], [] => Ok []
  | b :: m', x :: xs' =>
      ys <-- select m' xs' ;; Ok (if b then x :: ys else ys)
  | _, _ => Err IndexError
  end.

(** Column [idx] of the (rectangular) target tensor. *)
Fixpoint column (targets : seqs) (idx : nat) : result (list Z) :=
  match targets with
  | [] => Ok []
  | row :: rows => x <-- index row idx ;; xs <-- column rows idx ;; Ok (x :: xs)
  end.

(** One pass of the body of the loop of [_batch_loss]:
<<
        idxes = l > 0
        loss += criterion(outputs[idx][idxes], targets[idxes, idx])
        l -= 1
>>
    run for [n] consecutive values of [idx], starting at [idx].  [l] is the
    int64 tensor [answer_lengths], kept here as unbounded integers: the
    int64 [l -= 1] agrees with it unless an entry lies within [n] of
    [-2^63], where torch wraps around. *)
Fixpoint batch_loss_loop (criterion : criterion_t) (outs : outputs)
    (targets : seqs) (n idx : nat) (l : list Z) (loss : R) : result R :=
  match n with
  | O => Ok loss
  | S n' =>
      let idxes := gt0_mask l in
      out_t <-- index outs idx ;;
      sel_out <-- select idxes out_t ;;
      col <-- column targets idx ;;
      sel_tgt <-- select idxes col ;;
      batch_loss_loop criterion outs targets n' (S idx)
        (map (fun x => (x - 1)%Z) l) (loss + criterion sel_out sel_tgt)
  end.

(** [loss / len(outputs)]; the accumulator starts as the Python int [0], and
    [0 / 0] raises [ZeroDivisionError]. *)
Definition div_len (loss : R) (outs : outputs) : result R :=
  match length outs with
  | O => Err ZeroDivisionError
  | k => Ok (loss / INR k)%R
  end.

(** [_batch_loss(criterion, outputs, target_lengths, targets)]: the loop is
    [for idx in range(len(target_lengths))]. *)
Definition _batch_loss (criterion : criterion_t) (outs : outputs)
    (target_lengths : list Z) (targets : seqs) : result R :=
  loss <-- batch_loss_loop criterion outs targets (length target_lengths) 0
             target_lengths 0%R ;;
  div_len loss outs.

(** Specification side of the loss (not from the source): the masked NLL as
    the spec describes it, one step per available output timestep
    ([len(outputs)] steps), same mask, same decrement, same normalisation. *)
Definition masked_nll_reference (criterion : criterion_t) (outs : outputs)
    (answer_lengths : list Z) (targets : seqs) : result R :=
  loss <-- batch_loss_loop criterion outs targets (length outs) 0
             answer_lengths 0%R ;;
  div_len loss outs.

(** [nn.NLLLoss()] with its default mean reduction over a non-empty
    selection: [- (sum_i input[i][target[i]]) / n]. *)
Definition nll_loss : criterion_t := fun rows tgts =>
  (- fold_right Rplus 0 (map (fun p => nth (Z.to_nat (snd p)) (fst p) 0%R)
                         (combine rows tgts)) / INR (length rows))%R.

(** ** The [constants] module *)

(** Modelled from the spec: [constants.py] (imported as [C]) is not among the
    sources; the three variant tags are named after the spec's variants. *)
Definition LM_ANSWERS : string := "ANSWERS_ONLY".
(** Modelled from the spec: the tag of the question+answer variant. *)
Definition LM_QUESTION_ANSWERS : string := "QUESTION_ANSWERS".
(** Modelled from the spec: the tag of the question+answer+review variant. *)
Definition LM_QUESTION_ANSWERS_REVIEWS : string := "QUESTION_ANSWERS_REVIEWS".
(** Modelled from the spec: the checkpoint file names of the spec's layout
    [<base_path>/<model_name>/<timestamp>/{model.bin, params.json, vocab.pkl}]. *)
Definition SAVED_MODEL_FILENAME : string := "model.bin".
(** Modelled from the spec: see [SAVED_MODEL_FILENAME]. *)
Definition SAVED_PARAMS_FILENAME : string := "params.json".
(** Modelled from the spec: see [SAVED_MODEL_FILENAME]. *)
Definition SAVED_VOCAB_FILENAME : string := "vocab.pkl".

(** ** The hyperparameter mapping [params] (the keys the trainer reads) *)
Record Params := mkParams {
  VOCAB_SIZE : Z;
  HDIM : Z;
  OUTPUT_MAX_LEN : Z;
  H_LAYERS : Z;
  DROPOUT : R;
  EPOCHS : Z;
  LR : R;
  LR_DECAY : R;
  DECAY_START_EPOCH : Z;
  TEACHER_FORCING_RATIO : R;
  MODEL_NAME : string
}.

(** The attribute [self.model]: the code both calls it and compares it with
    the variant constants of [C]; it is [None] after [__init__]. *)
Inductive py_model :=
| ModelNone
| ModelConst (tag : string)
| ModelLM (vocab_size hdim output_max_len h_layers : Z) (dropout : R).

(** [self.model == c] for a string constant [c]. *)
Definition model_is (m : py_model) (c : string) : bool :=
  match m with ModelConst s => String.eqb s c | _ => false end.

(** A batch yielded by the data loader, in the three tuple shapes the epoch
    loops unpack: [(answer_seqs, answer_lengths)],
    [((answer_seqs, answer_lengths), quesion_seqs)] and
    [((answer_seqs, answer_lengths), quesion_seqs, review_seqs)]. *)
Inductive batch :=
| BatchA (answer_seqs : seqs) (answer_lengths : list Z)
| BatchQA (answer_seqs : seqs) (answer_lengths : list Z) (quesion_seqs : seqs)
| BatchQAR (answer_seqs : seqs) (answer_lengths : list Z)
    (quesion_seqs : seqs) (review_seqs : reviews).

Record SGD := mkSGD { sgd_lr : R }.

(** [datetime.datetime.now()]: the six fields [strftime] prints and the
    microseconds it drops. *)
Record datetime := mkDatetime {
  year : Z; month : Z; day : Z; hour : Z; minute : Z; second : Z;
  microsecond : Z
}.

(** What a computation of the trainer makes observable. *)
Inductive artifact :=
| ModelWeights
| ParamsJson (p : option Params)
| VocabPickle (v : option (list string)).

Inductive logline :=
| LogEpoch (epoch : Z)
| LogBatch (corpus : string) (batch_itr : Z) (loss perplexity : R)
| LogInfo (epoch : Z) (corpus : string) (losses perplexities : list R).

Inductive event :=
| EvZeroGrad
| EvForward (quesion_seqs : option seqs) (review_seqs : option reviews)
    (answer_seqs : seqs) (teacher_forcing : bool)
| EvBackward
| EvStep (lr : R)
| EvMakedirs (path : string)
| EvWrite (path : string) (what : artifact)
| EvLog (line : logline).

(** [self], plus the random generator, the clock, the directories of the
    file system and the trace of events. *)
Record trainer := mkTrainer {
  save_model_every : Z;
  print_every : Z;
  params : option Params;
  dataloader : list batch;
  vocab : option (list string);
  model : py_model;
  loss : list R;
  perplexity : list R;
  optimizer : option SGD;
  vocabs : option (list string);
  rng_seed : Z;
  rng_draws : nat;
  clock : datetime;
  fs_dirs : list string;
  trace : list event
}.

Definition set_params (p : option Params) (st : trainer) : trainer :=
  {| save_model_every := save_model_every st; print_every := print_every st;
     params := p; dataloader := dataloader st; vocab := vocab st;
     model := model st; loss := loss st; perplexity := perplexity st;
     optimizer := optimizer st; vocabs := vocabs st; rng_seed := rng_seed st;
     rng_draws := rng_draws st; clock := clock st; fs_dirs := fs_dirs st;
     trace := trace st |}.

Definition set_model (m : py_model) (st : trainer) : trainer :=
  {| save_model_every := save_model_every st; print_every := print_every st;
     params := params st; dataloader := dataloader st; vocab := vocab st;
     model := m; loss := loss st; perplexity := perplexity st;
     optimizer := optimizer st; vocabs := vocabs st; rng_seed := rng_seed st;
     rng_draws := rng_draws st; clock := clock st; fs_dirs := fs_dirs st;
     trace := trace st |}.

Definition set_optimizer (o : option SGD) (st : trainer) : trainer :=
  {| save_model_every := save_model_every st; print_every := print_every st;
     params := params st; dataloader := dataloader st; vocab := vocab st;
     model := model st; loss := loss st; perplexity := perplexity st;
     optimizer := o; vocabs := vocabs st; rng_seed := rng_seed st;
     rng_draws := rng_draws st; clock := clock st; fs_dirs := fs_dirs st;
     trace := trace st |}.

Definition set_vocabs (v : option (list string)) (st : trainer) : trainer :=
  {| save_model_every := save_model_every st; print_every := print_every st;
     params := params st; dataloader := dataloader st; vocab := vocab st;
     model := model st; loss := loss st; perplexity := perplexity st;
     optimizer := optimizer st; vocabs := v; rng_seed := rng_seed st;
     rng_draws := rng_draws st; clock := clock st; fs_dirs := fs_dirs st;
     trace := trace st |}.

Definition set_history (ls ps : list R) (st : trainer) : trainer :=
  {| save_model_every := save_model_every st; print_every := print_every st;
     params := params st; dataloader := dataloader st; vocab := vocab st;
     model := model st; loss := ls; perplexity := ps;
     optimizer := optimizer st; vocabs := vocabs st; rng_seed := rng_seed st;
     rng_draws := rng_draws st; clock := clock st; fs_dirs := fs_dirs st;
     trace := trace st |}.

Definition set_rng_draws (n : nat) (st : trainer) : trainer :=
  {| save_model_every := save_model_every st; print_every := print_every st;
     params := params st; dataloader := dataloader st; vocab := vocab st;
     model := model st; loss := loss st; perplexity := perplexity st;
     optimizer := optimizer st; vocabs := vocabs st; rng_seed := rng_seed st;
     rng_draws := n; clock := clock st; fs_dirs := fs_dirs st;
     trace := trace st |}.

Definition set_fs_dirs (ds : list string) (st : trainer) : trainer :=
  {| save_model_every := save_model_every st; print_every := print_every st;
     params := params st; dataloader := dataloader st; vocab := vocab st;
     model := model st; loss := loss st; perplexity := perplexity st;
     optimizer := optimizer st; vocabs := vocabs st; rng_seed := rng_seed st;
     rng_draws := rng_draws st; clock := clock st; fs_dirs := ds;
     trace := trace st |}.

Definition set_trace (tr : list event) (st : trainer) : trainer :=
  {| save_model_every := save_model_every st; print_every := print_every st;
     params := params st; dataloader := dataloader st; vocab := vocab st;
     model := model st; loss := loss st; perplexity := perplexity st;
     optimizer := optimizer st; vocabs := vocabs st; rng_seed := rng_seed st;
     rng_draws := rng_draws st; clock := clock st; fs_dirs := fs_dirs st;
     trace := tr |}.

(** ** The state-and-exception monad of methods of [Trainer] *)

Definition M (A : Type) := trainer -> result A * trainer.

Definition ret {A} (a : A) : M A := fun st => (Ok a, st).
Definition raise {A} (e : py_error) : M A := fun st => (Err e, st).
Definition bind {A B} (m : M A) (k : A -> M B) : M B := fun st =>
  match m st with
  | (Ok a, st') => k a st'
  | (Err e, st') => (Err e, st')
  end.
Definition lift {A} (r : result A) : M A := fun st => (r, st).
Definition gets {A} (f : trainer -> A) : M A := fun st => (Ok (f st), st).
Definition modify (f : trainer -> trainer) : M unit := fun st => (Ok tt, f st).
Definition emit (e : event) : M unit :=
  modify (fun st => set_trace (trace st ++ [e]) st).

(** Sequencing of methods: [do v <- e ; rest], and a tuple pattern on the
    left with [do '(a, b) <- e ; rest]. *)
Notation "'do' v <- e ; rest" := (bind e (fun v => rest))
  (at level 58, e at next level, right associativity).
Notation "'do' ' pt <- e ; rest" :=
  (bind e (fun tmp => match tmp with pt => rest end))
  (at level 58, pt pattern, e at next level, right associativity).

(** [self.params[k]]: [None[k]] raises [TypeError]. *)
Definition param {A} (k : Params -> A) : M A :=
  do p <- gets params ;
  match p with Some p => ret (k p) | None => raise TypeError end.

(** A tensor argument: the data as the loader yields it, or the [Variable]
    ([Var]) that [_var] builds around it. *)
Inductive tensor (A : Type) : Type :=
| Data (x : A)
| Var (x : A).
Arguments Data {A} x.
Arguments Var {A} x.

(** The entries of a tensor. *)
Definition tensor_data {A} (t : tensor A) : A :=
  match t with Data x => x | Var x => x end.

(** [_var(variable)] = [Variable(torch.LongTensor(variable).type(dtype))]:
    [torch.LongTensor] accepts the loader's data and rejects a [Variable]
    with [TypeError], so applying [_var] a second time raises (the dtype cast
    is invisible at this level of modelling). *)
Definition _var {A} (x : tensor A) : result (tensor A) :=
  match x with Data a => Ok (Var a) | Var _ => Err TypeError end.

(** [_var(x)] on a Python value that may be [None]:
    [torch.LongTensor(None)] raises [TypeError]. *)
Definition _var_opt {A} (x : option A) : result (tensor A) :=
  match x with Some a => _var (Data a) | None => Err TypeError end.

(** [map(_var, xs)]: Python 3's [map] is lazy, so the elements are not
    converted before the map object is iterated; [map(f, None)] raises
    [TypeError] at once. *)
Definition py_map_var {A} (xs : option (list A)) : result (list A) :=
  match xs with Some l => Ok l | None => Err TypeError end.

(** A local variable of a method: [None] when unbound, [Some None] when bound
    to Python's [None]. *)
Definition local (A : Type) := option (option A).

Definition read {A} (x : local A) : result (option A) :=
  match x with Some v => Ok v | None => Err UnboundLocalError end.

(** [_perplexity_from_loss(loss) = np.power(2.0, loss)]. *)
Definition _perplexity_from_loss (l : R) : R := Rpower 2 l.

(** [self.model.parameters()] / [self.model.state_dict()]: only the network
    has them; on [None] or a string they raise [AttributeError]. *)
Definition model_parameters (m : py_model) : result unit :=
  match m with ModelLM _ _ _ _ _ => Ok tt | _ => Err AttributeError end.

(** [self.optimizer.zero_grad()] / [self.optimizer.step()]. *)
Definition optimizer_call (o : option SGD) : result SGD :=
  match o with Some g => Ok g | None => Err AttributeError end.

(** [a % b == 0] on Python ints ([Z.modulo] is Python's floor modulo). *)
Definition py_mod_is0 (a b : Z) : result bool :=
  if Z.eqb b 0 then Err ZeroDivisionError else Ok (Z.eqb (Z.modulo a b) 0).

(** [range(n)]. *)
Definition py_range (n : Z) : list Z := map Z.of_nat (seq 0 (Z.to_nat n)).

(** The variant dispatch of the epoch loops, identical in [train]
    (lines 95-102) and [eval] (lines 122-129); it returns the new values of
    the locals [quesion_seqs] and [review_seqs].  The third test repeats
    [C.LM_QUESTION_ANSWERS] as in the source; [raise 'Unimplemented ...']
    raises a [str], which Python 3 rejects with [TypeError].
    Only the three tuple shapes of [batch] are modelled.  An item of the
    wrong shape for the variant is stopped here with [ValueError].  Python
    raises that [ValueError] itself when the tuple lengths differ.  In two
    cases Python's unpacking goes on and binds values of the wrong kind:
    [((a, l), q)] read as [(answer_seqs, answer_lengths)] under
    [C.LM_ANSWERS], and [(a, l)] read as
    [((answer_seqs, answer_lengths), quesion_seqs)] under
    [C.LM_QUESTION_ANSWERS] when [a] has two rows.  In both cases Python
    then raises a few lines later, with no effect in between.  In [train]
    the error is [UnboundLocalError] at the [train_batch] call (line 103).
    In [eval] the error comes at the latest from the double [_var] of
    line 134.  So the model raises the same way, only earlier and with a
    different exception class. *)
Definition decompose (m : py_model) (inputs : batch) (q : local seqs)
    (r : local reviews) : result (seqs * list Z * local seqs * local reviews) :=
  if model_is m LM_ANSWERS then
    match inputs with BatchA a l => Ok (a, l, q, r) | _ => Err ValueError end
  else if model_is m LM_QUESTION_ANSWERS then
    match inputs with
    | BatchQA a l qs => Ok (a, l, Some (Some qs), r)
    | _ => Err ValueError
    end
  else if model_is m LM_QUESTION_ANSWERS then
    match inputs with
    | BatchQAR a l qs rs => Ok (a, l, Some (Some qs), Some (Some rs))
    | _ => Err ValueError
    end
  else Err TypeError.

(** [Trainer.__init__]; [self.optimizer] does not exist before line 53 and
    is [None] in the record. *)
Definition Trainer_init (dataloader : list batch) (params : Params)
    (random_seed save_model_every print_every : Z)
    (dev_loader : option (list batch)) (vocab : option (list string))
    (now : datetime) (dirs : list string) (tr : list event) : trainer :=
  let st := {| save_model_every := save_model_every;
               print_every := print_every;
               params := Some params;
               dataloader := dataloader;
               vocab := vocab;
               model := ModelLM (VOCAB_SIZE params) (HDIM params)
                          (OUTPUT_MAX_LEN params) (H_LAYERS params)
                          (DROPOUT params);
               loss := [];
               perplexity := [];
               optimizer := None;
               vocabs := None;
               rng_seed := random_seed;
               rng_draws := 0;
               clock := now;
               fs_dirs := dirs;
               trace := tr |} in
  let st := set_model ModelNone st in
  let st := set_optimizer None st in
  let st := set_params None st in
  set_vocabs None st.

(** ** Checkpoint paths *)

Definition digit (d : Z) : Ascii.ascii := Ascii.ascii_of_nat (48 + Z.to_nat d).

Fixpoint decimal (fuel : nat) (n : Z) : string :=
  match fuel with
  | O => EmptyString
  | S f =>
      if Z.ltb n 10 then String (digit n) EmptyString
      else (decimal f (n / 10) ++ String (digit (n mod 10)) EmptyString)%string
  end.

Fixpoint zeros (k : nat) : string :=
  match k with O => EmptyString | S k' => String "0"%char (zeros k') end.

Definition pad (w : nat) (n : Z) : string :=
  let s := decimal 20 n in (zeros (w - String.length s) ++ s)%string.

(** [time.strftime('%Y-%m-%d-%H-%M-%S')]. *)
Definition strftime (t : datetime) : string :=
  (pad 4 (year t) ++ "-" ++ pad 2 (month t) ++ "-" ++ pad 2 (day t) ++ "-" ++
   pad 2 (hour t) ++ "-" ++ pad 2 (minute t) ++ "-" ++ pad 2 (second t))%string.

(** ['%s/%s' & (a, b)]: [str] has no [&] operator, Python raises
    [TypeError]. *)
Definition str_and_tuple (fmt : string) (args : string * string) : result string :=
  Err TypeError.

Section Methods.

(** [self.model(quesion_seqs, review_seqs, answer_seqs, teacher_forcing)],
    first component of the returned triple. *)
Variable forward :
  py_model -> option seqs -> option reviews -> seqs -> bool -> result outputs.
(** [self.criterion], the [nn.NLLLoss()] object. *)
Variable criterion : criterion_t.
(** The [k]-th value of [np.random.random()] after [np.random.seed(seed)]. *)
Variable np_random : Z -> nat -> R.
(** [C.BASE_PATH]. *)
Variable BASE_PATH : string.

Definition np_random_random : M R := fun st =>
  (Ok (np_random (rng_seed st) (rng_draws st)),
   set_rng_draws (S (rng_draws st)) st).

(** [Trainer._set_optimizer(lr_decay)]; it returns [None]. *)
Definition _set_optimizer (lr_decay : R) : M unit :=
  do m <- gets model ;
  do _ <- lift (model_parameters m) ;
  do lr <- param LR ;
  modify (set_optimizer (Some (mkSGD (lr * lr_decay)))).

(** [Trainer.train_batch]. *)
Definition train_batch (quesion_seqs : option seqs)
    (review_seqs : option reviews) (answer_seqs : seqs)
    (answer_lengths : list Z) : M R :=
  do o <- gets optimizer ;
  do _ <- lift (optimizer_call o) ;
  do _ <- emit EvZeroGrad ;
  do answer_seqs <- lift (_var (Data answer_seqs)) ;
  do m <- gets model ;
  do quesion_seqs <-
    (if model_is m LM_ANSWERS then ret None
     else do q <- lift (_var_opt quesion_seqs) ; ret (Some q)) ;
  do review_seqs <-
    (if model_is m LM_QUESTION_ANSWERS_REVIEWS
     then do r <- lift (py_map_var review_seqs) ; ret (Some r)
     else ret None) ;
  do target_seqs <- lift (_var answer_seqs) ;
  do u <- np_random_random ;
  do ratio <- param TEACHER_FORCING_RATIO ;
  let teacher_forcing := if Rlt_dec u ratio then true else false in
  let q := option_map tensor_data quesion_seqs in
  let a := tensor_data answer_seqs in
  do _ <- emit (EvForward q review_seqs a teacher_forcing) ;
  do outs <- lift (forward m q review_seqs a teacher_forcing) ;
  do l <- lift (_batch_loss criterion outs answer_lengths (tensor_data target_seqs)) ;
  do _ <- emit EvBackward ;
  do o <- gets optimizer ;
  do g <- lift (optimizer_call o) ;
  do _ <- emit (EvStep (sgd_lr g)) ;
  ret l.

(** [Trainer._save_dir(time)]. *)
Definition _save_dir (time : datetime) : M string :=
  let time_str := strftime time in
  do name <- param MODEL_NAME ;
  ret (BASE_PATH ++ "/" ++ name ++ "/" ++ time_str)%string.

Definition path_exists (path : string) (st : trainer) : bool :=
  existsb (String.eqb path) (fs_dirs st).

(** [_ensure_path(path)]. *)
Definition _ensure_path (path : string) : M unit :=
  do ex <- gets (path_exists path) ;
  if ex then ret tt
  else do _ <- modify (fun st => set_fs_dirs (fs_dirs st ++ [path]) st) ;
       emit (EvMakedirs path).

(** [Trainer.save_model]. *)
Definition save_model : M unit :=
  do t <- gets clock ;
  do save_dir <- _save_dir t ;
  do _ <- _ensure_path save_dir ;
  let model_filename := (save_dir ++ "/" ++ SAVED_MODEL_FILENAME)%string in
  let params_filename := (save_dir ++ "/" ++ SAVED_PARAMS_FILENAME)%string in
  do vocab_filename <- lift (str_and_tuple "%s/%s" (save_dir, SAVED_VOCAB_FILENAME)) ;
  do m <- gets model ;
  do _ <- lift (model_parameters m) ;
  do _ <- emit (EvWrite model_filename ModelWeights) ;
  do p <- gets params ;
  do _ <- emit (EvWrite params_filename (ParamsJson p)) ;
  do v <- gets vocab ;
  emit (EvWrite vocab_filename (VocabPickle v)).

(** [self.loss.append(loss); self.perplexity.append(_perplexity_from_loss(loss))]. *)
Definition record_loss (l : R) : M unit :=
  modify (fun st => set_history (loss st ++ [l])
                      (perplexity st ++ [_perplexity_from_loss l]) st).

(** The inner loop of [train], from batch number [batch_itr] on. *)
Fixpoint train_batches (batch_itr : Z) (bs : list batch) (q : local seqs)
    (r : local reviews) : M (local seqs * local reviews) :=
  match bs with
  | [] => ret (q, r)
  | inputs :: rest =>
      do m <- gets model ;
      do '(answer_seqs, answer_lengths, q, r) <- lift (decompose m inputs q r) ;
      do qv <- lift (read q) ;
      do rv <- lift (read r) ;
      do l <- train_batch qv rv answer_seqs answer_lengths ;
      do _ <- record_loss l ;
      do every <- gets print_every ;
      do b <- lift (py_mod_is0 batch_itr every) ;
      do _ <- (if b then
                 do st <- gets (fun st => st) ;
                 emit (EvLog (LogBatch "Train" batch_itr (last (loss st) 0%R)
                                (last (perplexity st) 0%R)))
               else ret tt) ;
      train_batches (batch_itr + 1) rest q r
  end.

(** [self.optimizer = self._set_optimizer(lr_decay=self.params[C.LR_DECAY])]:
    the right-hand side sets [self.optimizer] and returns [None], which is
    then assigned to [self.optimizer]. *)
Definition decay_branch : M unit :=
  do d <- param LR_DECAY ;
  do _ <- _set_optimizer d ;
  modify (set_optimizer None).

(** The outer loop of [train]. *)
Fixpoint train_epochs (epochs : list Z) (q : local seqs) (r : local reviews)
    : M unit :=
  match epochs with
  | [] => ret tt
  | epoch :: rest =>
      do _ <- emit (EvLog (LogEpoch epoch)) ;
      do bs <- gets dataloader ;
      do '(q, r) <- train_batches 0 bs q r ;
      do sme <- gets save_model_every ;
      do b <- lift (py_mod_is0 epoch sme) ;
      do _ <- (if b then save_model else ret tt) ;
      do ds <- param DECAY_START_EPOCH ;
      do _ <- (if Z.eqb epoch ds then decay_branch else ret tt) ;
      train_epochs rest q r
  end.

(** [Trainer.train]. *)
Definition train : M unit :=
  do _ <- _set_optimizer 1 ;
  do e <- param EPOCHS ;
  train_epochs (py_range e) None None.

(** The loop of [Trainer.eval], from batch number [batch_itr] on, with the
    lists [dev_losses] and [dev_perplexities] built so far. *)
Fixpoint eval_batches (batch_itr : Z) (bs : list batch) (q : local seqs)
    (r : local reviews) (dev_losses dev_perplexities : list R)
    : M (list R * list R) :=
  match bs with
  | [] => ret (dev_losses, dev_perplexities)
  | inputs :: rest =>
      do m <- gets model ;
      do '(answer_seqs, answer_lengths, q, r) <- lift (decompose m inputs q r) ;
      do answer_seqs <- lift (_var (Data answer_seqs)) ;
      do quesion_seqs <-
        (if model_is m LM_ANSWERS then ret None
         else do qv <- lift (read q) ;
              do x <- lift (_var_opt qv) ; ret (Some x)) ;
      do review_seqs <-
        (if model_is m LM_QUESTION_ANSWERS_REVIEWS
         then do rv <- lift (read r) ;
              do x <- lift (py_map_var rv) ; ret (Some x)
         else ret None) ;
      do target_seqs <- lift (_var answer_seqs) ;
      let qs := option_map tensor_data quesion_seqs in
      let a := tensor_data answer_seqs in
      do _ <- emit (EvForward qs review_seqs a false) ;
      do outs <- lift (forward m qs review_seqs a false) ;
      do dev_loss <-
        lift (_batch_loss criterion outs answer_lengths (tensor_data target_seqs)) ;
      let dev_losses := dev_losses ++ [dev_loss] in
      let dev_perplexities :=
        dev_perplexities ++ [_perplexity_from_loss dev_loss] in
      do every <- gets print_every ;
      do b <- lift (py_mod_is0 batch_itr every) ;
      do _ <- (if b then
                 emit (EvLog (LogBatch "Dev" batch_itr dev_loss
                                (last dev_perplexities 0%R)))
               else ret tt) ;
      eval_batches (batch_itr + 1) rest (Some qs) (Some review_seqs)
        dev_losses dev_perplexities
  end.

(** [Trainer.eval]; [_print_info(1, dev_losses, dev_perplexities,
    'Development')] prints the means of the two lists. *)
Definition eval : M unit :=
  do bs <- gets dataloader ;
  do '(dev_losses, dev_perplexities) <- eval_batches 0 bs None None [] [] ;
  emit (EvLog (LogInfo 1 "Development" dev_losses dev_perplexities)).

End Methods.


(** ** Observations on traces and states *)

Definition is_makedirs (e : event) : bool :=
  match e with EvMakedirs _ => true | _ => false end.

Definition is_params_write (e : event) : bool :=
  match e with EvWrite _ (ParamsJson _) => true | _ => false end.

(** Events that only happen when a batch is trained. *)
Definition is_batch_work (e : event) : bool :=
  match e with
  | EvZeroGrad | EvForward _ _ _ _ | EvBackward | EvStep _ => true
  | _ => false
  end.

(** [m] run from any state only appends events satisfying [Q]. *)
Definition emits_only (Q : event -> Prop) {A} (m : M A) : Prop :=
  forall st, exists extra, trace (snd (m st)) = trace st ++ extra /\ Forall Q extra.

(** [m] keeps the state predicate [P]. *)
Definition preserves (P : trainer -> Prop) {A} (m : M A) : Prop :=
  forall st, P st -> P (snd (m st)).

(** The history invariant: [self.perplexity] is the pointwise image of
    [self.loss] under [_perplexity_from_loss]. *)
Definition history_ok (st : trainer) : Prop :=
  perplexity st = map _perplexity_from_loss (loss st).

(** A log line of [_print_info] reports perplexities that are the image of
    the losses it reports. *)
Definition info_ok (e : event) : Prop :=
  match e with
  | EvLog (LogInfo _ _ ls ps) => ps = map _perplexity_from_loss ls
  | _ => True
  end.

(** Events a read-only pass may produce: model calls without teacher
    forcing, never a gradient step. *)
Definition eval_event_ok (e : event) : Prop :=
  match e with
  | EvForward _ _ _ tf => tf = false
  | EvZeroGrad | EvBackward | EvStep _ => False
  | _ => True
  end.

(** [self.model] is none of the three variants of [C]. *)
Definition unknown_variant (m : py_model) : Prop :=
  model_is m LM_ANSWERS = false /\ model_is m LM_QUESTION_ANSWERS = false /\
  model_is m LM_QUESTION_ANSWERS_REVIEWS = false.

(** From [st] to [st'] no batch was trained: the new events contain no
    gradient reset, model call, backward pass or optimizer step. *)
Definition quiet (st st' : trainer) : Prop :=
  exists extra, trace st' = trace st ++ extra /\
                forallb (fun e => negb (is_batch_work e)) extra = true.

(** [self.model] and [self.optimizer] are [m] and [o]. *)
Definition holds_model (m : py_model) (o : option SGD) (st : trainer) : Prop :=
  model st = m /\ optimizer st = o.

(** Events other than batch work. *)
Definition no_batch_work (e : event) : Prop := is_batch_work e = false.

(** The arguments of a model call made with [self.model = m]: the question
    argument is absent exactly under [C.LM_ANSWERS], the review argument is
    absent, teacher forcing is off. *)
Definition fwd_args_ok (m : py_model) (e : event) : Prop :=
  match e with
  | EvForward q r _ tf =>
      (q = None <-> model_is m LM_ANSWERS = true) /\ r = None /\ tf = false
  | _ => True
  end.

(** [m] run from a state satisfying [P] ends in a state satisfying [P] and
    only appends events satisfying [Q]. *)
Definition emits_at (P : trainer -> Prop) (Q : event -> Prop) {A} (m : M A)
    : Prop :=
  forall st, P st -> P (snd (m st)) /\
    exists extra, trace (snd (m st)) = trace st ++ extra /\ Forall Q extra.

(** A timestamp [datetime.now()] can return with a four-digit year. *)
Definition valid_datetime (t : datetime) : Prop :=
  (1000 <= year t <= 9999 /\ 1 <= month t <= 12 /\ 1 <= day t <= 31 /\
   0 <= hour t <= 23 /\ 0 <= minute t <= 59 /\ 0 <= second t <= 59 /\
   0 <= microsecond t <= 999999)%Z.

(** [t] and [t'] fall in the same second: they agree on every field but the
    microseconds. *)
Definition same_second (t t' : datetime) : Prop :=
  year t = year t' /\ month t = month t' /\ day t = day t' /\
  hour t = hour t' /\ minute t = minute t' /\ second t = second t'.

(** The integer a string of decimal digits denotes ([int(s)]), used to read
    the timestamp fields back. *)
Fixpoint digits_value_acc (acc : Z) (s : string) : Z :=
  match s with
  | EmptyString => acc
  | String c s' =>
      digits_value_acc (acc * 10 + (Z.of_nat (Ascii.nat_of_ascii c) - 48)) s'
  end.

Definition digits_value (s : string) : Z := digits_value_acc 0 s.

(** ** Concrete inputs *)

Definition params_ex : Params :=
  mkParams 10 4 5 1 0 1 (1/10) (1/2) 0 (1/2) "lm".

Definition clock_ex : datetime := mkDatetime 2026 10 14 9 5 3 0.

Definition outs_ex : outputs := [[[-1; -1]%R]; [[-1; -1]%R]].

Definition answers_ex : seqs := [[0; 1]%Z].

(** Two output timesteps for a batch of three examples. *)
Definition outs3_ex : outputs :=
  [[[-1; -1]; [-1; -1]; [-1; -1]]%R; [[-1; -1]; [-1; -1]; [-1; -1]]%R].

(** A trainer whose fields hold what [__init__] meant to keep; [m] and the
    loader vary. *)
Definition trainer_ex (m : py_model) (bs : list batch) : trainer :=
  {| save_model_every := 1; print_every := 100; params := Some params_ex;
     dataloader := bs; vocab := None; model := m; loss := []; perplexity := [];
     optimizer := None; vocabs := None; rng_seed := 1; rng_draws := 0;
     clock := clock_ex; fs_dirs := []; trace := [] |}.

Definition lm_ex : py_model := ModelLM 10 4 5 1 0.

(** A forward pass returning two timesteps for one example. *)
Definition forward_ex (m : py_model) (q : option seqs) (r : option reviews)
    (a : seqs) (tf : bool) : result outputs := Ok outs_ex.

Definition np_random_ex (seed : Z) (k : nat) : R := 0%R.

(** One second after [clock_ex]. *)
Definition clock_next_ex : datetime := mkDatetime 2026 10 14 9 5 4 0.

(** Half a second after [clock_ex], in the same second. *)
Definition clock_half_ex : datetime := mkDatetime 2026 10 14 9 5 3 500000.

(** [trainer_ex] with [print_every = 0]. *)
Definition trainer_pe0_ex (m : py_model) (bs : list batch) : trainer :=
  {| save_model_every := 1; print_every := 0; params := Some params_ex;
     dataloader := bs; vocab := None; model := m; loss := []; perplexity := [];
     optimizer := None; vocabs := None; rng_seed := 1; rng_draws := 0;
     clock := clock_ex; fs_dirs := []; trace := [] |}.


(** ** Reasoning about computations of [M] *)

Create HintDb trainer.

Lemma Forall_nil_trainer (Q : event -> Prop) : Forall Q [].
Proof. constructor. Qed.

Lemma eo_pure {A} (Q : event -> Prop) (m : M A) :
  (forall st, trace (snd (m st)) = trace st) -> emits_only Q m.
Proof. intros H st; exists []; rewrite H, app_nil_r; split; auto. Qed.

Lemma eo_ret {A} Q (a : A) : emits_only Q (ret a).
Proof. apply eo_pure; reflexivity. Qed.

Lemma eo_raise {A} Q e : emits_only Q (@raise A e).
Proof. apply eo_pure; reflexivity. Qed.

Lemma eo_lift {A} Q (r : result A) : emits_only Q (lift r).
Proof. apply eo_pure; reflexivity. Qed.

Lemma eo_gets {A} Q (f : trainer -> A) : emits_only Q (gets f).
Proof. apply eo_pure; reflexivity. Qed.

Lemma eo_modify Q f :
  (forall st, trace (f st) = trace st) -> emits_only Q (modify f).
Proof. intros H; apply eo_pure; exact H. Qed.

Lemma eo_emit (Q : event -> Prop) e : Q e -> emits_only Q (emit e).
Proof. intros H st; exists [e]; split; [reflexivity | auto]. Qed.

Lemma eo_bind {A B} Q (m : M A) (k : A -> M B) :
  emits_only Q m -> (forall a, emits_only Q (k a)) -> emits_only Q (bind m k).
Proof.
  intros Hm Hk st; unfold bind.
  destruct (Hm st) as [x1 [E1 F1]].
  destruct (m st) as [[a|e] st1] eqn:Est; simpl in *.
  - destruct (Hk a st1) as [x2 [E2 F2]].
    exists (x1 ++ x2); rewrite E2, E1, app_assoc; split;
      [reflexivity | apply Forall_app; auto].
  - exists x1; auto.
Qed.

Lemma eo_param {A} Q (k : Params -> A) : emits_only Q (param k).
Proof.
  apply eo_bind; [apply eo_gets|]; intros [p|]; [apply eo_ret | apply eo_raise].
Qed.

Lemma pr_pure {A} (P : trainer -> Prop) (m : M A) :
  (forall st, P st -> P (snd (m st))) -> preserves P m.
Proof. auto. Qed.

Lemma pr_ret {A} P (a : A) : preserves P (ret a).
Proof. intros st H; exact H. Qed.

Lemma pr_raise {A} P e : preserves P (@raise A e).
Proof. intros st H; exact H. Qed.

Lemma pr_lift {A} P (r : result A) : preserves P (lift r).
Proof. intros st H; exact H. Qed.

Lemma pr_gets {A} P (f : trainer -> A) : preserves P (gets f).
Proof. intros st H; exact H. Qed.

Lemma pr_modify (P : trainer -> Prop) f :
  (forall st, P st -> P (f st)) -> preserves P (modify f).
Proof. intros H st; exact (H st). Qed.

Lemma pr_bind {A B} P (m : M A) (k : A -> M B) :
  preserves P m -> (forall a, preserves P (k a)) -> preserves P (bind m k).
Proof.
  intros Hm Hk st H; unfold bind.
  pose proof (Hm st H) as H1.
  destruct (m st) as [[a|e] st1]; simpl in *; [apply Hk|]; exact H1.
Qed.

Lemma pr_param {A} P (k : Params -> A) : preserves P (param k).
Proof.
  apply pr_bind; [apply pr_gets|]; intros [p|]; [apply pr_ret | apply pr_raise].
Qed.

#[local] Hint Resolve eo_ret eo_raise eo_lift eo_gets eo_param
  pr_ret pr_raise pr_lift pr_gets pr_param : trainer.

(** Split a computation along its binds, [if]s and [match]es. *)
Ltac step_m :=
  repeat match goal with
  | |- emits_only _ (bind _ _) => apply eo_bind; [|intro]
  | |- preserves _ (bind _ _) => apply pr_bind; [|intro]
  | |- emits_only _ (match ?x with _ => _ end) => destruct x
  | |- preserves _ (match ?x with _ => _ end) => destruct x
  | |- emits_only _ (if ?b then _ else _) => destruct b
  | |- preserves _ (if ?b then _ else _) => destruct b
  end; auto with trainer.


(** [m] returns only values satisfying [Pr] (when it returns). *)
Definition returns {A} (Pr : A -> Prop) (m : M A) : Prop :=
  forall st, match fst (m st) with Ok a => Pr a | Err _ => True end.

Lemma rt_bind {A B} (Pr : B -> Prop) (m : M A) (k : A -> M B) :
  (forall a, returns Pr (k a)) -> returns Pr (bind m k).
Proof.
  intros Hk st; unfold bind.
  destruct (m st) as [[a|e] st1]; simpl; [apply Hk | exact I].
Qed.

Lemma rt_raise {A} (Pr : A -> Prop) e : returns Pr (raise e).
Proof. intros st; exact I. Qed.

Lemma rt_lift_err {A} (Pr : A -> Prop) e : returns Pr (lift (Err e)).
Proof. intros st; exact I. Qed.

Lemma eo_bind_dep {A B} Q (Pr : A -> Prop) (m : M A) (k : A -> M B) :
  emits_only Q m -> returns Pr m -> (forall a, Pr a -> emits_only Q (k a)) ->
  emits_only Q (bind m k).
Proof.
  intros Hm Hr Hk st; unfold bind.
  destruct (Hm st) as [x1 [E1 F1]]; specialize (Hr st).
  destruct (m st) as [[a|e] st1]; simpl in *.
  - destruct (Hk a Hr st1) as [x2 [E2 F2]].
    exists (x1 ++ x2); rewrite E2, E1, app_assoc; split;
      [reflexivity | apply Forall_app; auto].
  - exists x1; auto.
Qed.

Lemma history_ok_trace tr st : history_ok st -> history_ok (set_trace tr st).
Proof. auto. Qed.

Lemma pr_emit e : preserves history_ok (emit e).
Proof. apply pr_modify; intros st; apply history_ok_trace. Qed.

Lemma pr_set_optimizer_field o : preserves history_ok (modify (set_optimizer o)).
Proof. apply pr_modify; auto. Qed.

Lemma pr_set_optimizer d : preserves history_ok (_set_optimizer d).
Proof. unfold _set_optimizer; step_m; apply pr_set_optimizer_field. Qed.

Lemma pr_record_loss l : preserves history_ok (record_loss l).
Proof.
  apply pr_modify; intros st H; unfold history_ok in *; simpl.
  rewrite H, map_app; reflexivity.
Qed.

Lemma pr_decay_branch : preserves history_ok decay_branch.
Proof.
  unfold decay_branch; step_m; [apply pr_set_optimizer | apply pr_set_optimizer_field].
Qed.

Lemma eo_set_optimizer Q d : emits_only Q (_set_optimizer d).
Proof. unfold _set_optimizer; step_m; apply eo_modify; reflexivity. Qed.

#[local] Hint Resolve pr_emit pr_set_optimizer pr_record_loss pr_decay_branch
  pr_set_optimizer_field eo_set_optimizer : trainer.

Section Proofs.

Context (forward :
  py_model -> option seqs -> option reviews -> seqs -> bool -> result outputs).
Context (criterion : criterion_t) (np_random : Z -> nat -> R) (BASE_PATH : string).

Local Abbreviation train_batch := (train_batch forward criterion np_random).
Local Abbreviation save_model := (save_model BASE_PATH).
Local Abbreviation train_batches := (train_batches forward criterion np_random).
Local Abbreviation train_epochs := (train_epochs forward criterion np_random BASE_PATH).
Local Abbreviation train := (train forward criterion np_random BASE_PATH).
Local Abbreviation eval_batches := (eval_batches forward criterion).
Local Abbreviation eval := (eval forward criterion).

Lemma pr_np_random : preserves history_ok (np_random_random np_random).
Proof. intros st H; exact H. Qed.

Lemma pr_train_batch q r a l : preserves history_ok (train_batch q r a l).
Proof. unfold Trainer.train_batch; step_m; apply pr_np_random. Qed.

Lemma pr_ensure_path path : preserves history_ok (_ensure_path path).
Proof. unfold _ensure_path; step_m; apply pr_modify; auto. Qed.

Lemma pr_save_model : preserves history_ok save_model.
Proof.
  unfold Trainer.save_model, _save_dir; step_m; apply pr_ensure_path.
Qed.

#[local] Hint Resolve pr_np_random pr_train_batch pr_ensure_path pr_save_model
  : trainer.

Lemma pr_train_batches itr bs q r : preserves history_ok (train_batches itr bs q r).
Proof.
  revert itr q r; induction bs as [|b bs IH]; intros itr q r; simpl; step_m.
Qed.

Lemma pr_train_epochs es q r : preserves history_ok (train_epochs es q r).
Proof.
  revert q r; induction es as [|e es IH]; intros q r; simpl; step_m.
  apply pr_train_batches.
Qed.

Lemma pr_train : preserves history_ok train.
Proof. unfold Trainer.train; step_m; apply pr_train_epochs. Qed.

Lemma rt_eval_batches itr bs q r dl dp :
  dp = map _perplexity_from_loss dl ->
  returns (fun res => snd res = map _perplexity_from_loss (fst res))
    (eval_batches itr bs q r dl dp).
Proof.
  revert itr q r dl dp; induction bs as [|b bs IH]; intros itr q r dl dp H.
  - intros st; exact H.
  - simpl; repeat (apply rt_bind; intro);
      repeat match goal with
      | |- returns _ (match ?x with _ => _ end) => destruct x
      | |- returns _ (if ?b then _ else _) => destruct b
      | |- returns _ (bind _ _) => apply rt_bind; intro
      end;
      apply IH; rewrite H, map_app; reflexivity.
Qed.

Lemma eo_eval_batches (Q : event -> Prop) itr bs q r dl dp :
  (forall qs rs a, Q (EvForward qs rs a false)) ->
  (forall c i x y, Q (EvLog (LogBatch c i x y))) ->
  emits_only Q (eval_batches itr bs q r dl dp).
Proof.
  intros HF HL; revert itr q r dl dp; induction bs as [|b bs IH];
    intros itr q r dl dp; simpl; step_m; apply eo_emit; auto.
Qed.


Lemma save_model_outcome st :
  (exists e, fst (save_model st) = Err e) /\
  (exists extra, trace (snd (save_model st)) = trace st ++ extra /\
                 forallb is_makedirs extra = true).
Proof.
  unfold Trainer.save_model, _save_dir, _ensure_path, param, bind, gets, lift,
    ret, raise, modify, emit, str_and_tuple; simpl.
  destruct (params st) as [p|]; simpl.
  - destruct (path_exists _ _); simpl; (split; [eauto|]).
    + exists []; rewrite app_nil_r; auto.
    + eexists; split; [reflexivity | reflexivity].
  - split; eauto; exists []; rewrite app_nil_r; auto.
Qed.


(** ** Claims *)

(** C1 (code bug): [_batch_loss] runs its loop [len(target_lengths)] times
    (the batch size), not once per output timestep as the reference masked
    NLL does: with one example of length 2 and two output timesteps, where
    the NLL of each step is 1, the code returns [1/2] (second timestep never
    accumulated) while the reference returns [1]. *)
Theorem batch_loss_loops_over_batch_size :
  _batch_loss nll_loss outs_ex [2%Z] answers_ex = Ok (1/2)%R /\
  masked_nll_reference nll_loss outs_ex [2%Z] answers_ex = Ok 1%R.
Proof.
  split.
  - unfold _batch_loss, nll_loss; cbn; f_equal; field.
  - unfold masked_nll_reference, nll_loss; cbn; f_equal; simpl; field.
Qed.

(** C8 (code bug): for every criterion, a batch of three examples scored on
    two output timesteps makes [_batch_loss] index [outputs[2]] and raise
    [IndexError], while the reference loss over the two available timesteps
    is defined. *)
Theorem batch_loss_indexes_past_outputs (c : criterion_t) :
  _batch_loss c outs3_ex [1; 1; 1]%Z [[0; 1]; [0; 1]; [0; 1]]%Z = Err IndexError /\
  exists v, masked_nll_reference c outs3_ex [1; 1; 1]%Z [[0; 1]; [0; 1]; [0; 1]]%Z = Ok v.
Proof. split; [reflexivity | cbn; eexists; reflexivity]. Qed.

(** C4: every loss [train] appends to [self.loss] is matched, position by
    position, by [2^loss] in [self.perplexity] (an invariant that holds on
    the empty histories of [__init__] and that [train] keeps, also when it
    raises), and the [_print_info] line of [eval] reports dev perplexities
    that are [2^loss] of the dev losses it reports. *)
Theorem perplexity_is_pow2_of_loss (st : trainer) :
  history_ok st ->
  history_ok (snd (train st)) /\
  (exists extra, trace (snd (eval st)) = trace st ++ extra /\ Forall info_ok extra) /\
  (forall dl p seed sme pe dev v now dirs tr,
     history_ok (Trainer_init dl p seed sme pe dev v now dirs tr)).
Proof.
  intros H; split; [apply pr_train; exact H|]; split; [|reflexivity].
  clear H; revert st; change (emits_only info_ok eval).
  unfold Trainer.eval; apply eo_bind; [apply eo_gets|]; intros bs.
  apply (eo_bind_dep _ (fun res => snd res = map _perplexity_from_loss (fst res))).
  - apply eo_eval_batches; simpl; auto.
  - apply rt_eval_batches; reflexivity.
  - intros [dl dp] Hd; apply eo_emit; exact Hd.
Qed.

(** C5 (code bug): [save_model] never writes any of its three artifacts: it
    raises (at the latest at ['%s/%s' & (...)] for the vocabulary file name,
    line 157) after at most creating the checkpoint directory; on a trainer
    with hyperparameters it creates [<base>/<model_name>/<timestamp>] and
    then raises [TypeError]. *)
Theorem save_model_writes_no_artifact (st : trainer) :
  (exists e, fst (save_model st) = Err e) /\
  (exists extra, trace (snd (save_model st)) = trace st ++ extra /\
                 forallb is_makedirs extra = true) /\
  fst (save_model (trainer_ex lm_ex [])) = Err TypeError /\
  fs_dirs (snd (save_model (trainer_ex lm_ex [])))
    = [(BASE_PATH ++ "/lm/2026-10-14-09-05-03")%string].
Proof.
  destruct (save_model_outcome st) as [H1 H2]; split; [exact H1|]; split;
    [exact H2|]; split; reflexivity.
Qed.

(** C6 (code bug): no run of [save_model] writes the hyperparameters file
    (the [json.dump] of line 161 is never reached), so there is no artifact
    to parse back. *)
Theorem save_model_writes_no_params_file (st : trainer) :
  exists extra, trace (snd (save_model st)) = trace st ++ extra /\
                forallb (fun e => negb (is_params_write e)) extra = true.
Proof.
  destruct (save_model_outcome st) as [_ [extra [E F]]].
  exists extra; split; [exact E|]; clear E.
  induction extra as [|e extra IH]; [reflexivity|].
  simpl in F |- *; apply andb_prop in F as [F1 F2].
  destruct e; try discriminate; simpl; apply IH; exact F2.
Qed.

Lemma decompose_unknown m b q r :
  unknown_variant m -> decompose m b q r = Err TypeError.
Proof.
  intros [H1 [H2 H3]]; unfold decompose; rewrite H1, H2; reflexivity.
Qed.

Lemma py_range_pos e : (1 <= e)%Z -> py_range e = 0%Z :: map Z.of_nat (seq 1 (Z.to_nat e - 1)).
Proof.
  intros H; unfold py_range.
  replace (Z.to_nat e) with (S (Z.to_nat e - 1)) by lia; simpl.
  rewrite Nat.sub_0_r; reflexivity.
Qed.

Lemma eval_unknown_nonempty st b bs :
  unknown_variant (model st) -> dataloader st = b :: bs ->
  eval st = (Err TypeError, st).
Proof.
  intros Hu Hd; unfold Trainer.eval, bind, gets; rewrite Hd; simpl.
  unfold bind, gets, lift; rewrite (decompose_unknown _ _ _ _ Hu); reflexivity.
Qed.

Lemma eval_empty st : dataloader st = [] ->
  eval st = (Ok tt, set_trace (trace st ++ [EvLog (LogInfo 1 "Development" [] [])]) st).
Proof. intros Hd; unfold Trainer.eval, bind, gets; rewrite Hd; reflexivity. Qed.

Lemma train_unknown_nonempty st b bs :
  unknown_variant (model st) -> dataloader st = b :: bs ->
  match params st with Some p => (1 <= EPOCHS p)%Z | None => True end ->
  (exists e, fst (train st) = Err e) /\ quiet st (snd (train st)).
Proof.
  intros Hu Hd Hp.
  unfold Trainer.train, _set_optimizer, param, bind, gets, lift, modify, ret, raise.
  destruct (model_parameters (model st)); simpl.
  - destruct (params st) as [p|] eqn:Ep; simpl.
    + rewrite Ep; simpl; rewrite (py_range_pos _ Hp); simpl.
      unfold bind, emit, modify, gets, lift; simpl; rewrite Hd; simpl.
      unfold bind, gets, lift; simpl.
      rewrite (decompose_unknown _ _ _ _ Hu); simpl.
      split; [eauto | exists [EvLog (LogEpoch 0)]; split; reflexivity].
    + split; [eauto | exists []; rewrite app_nil_r; split; reflexivity].
  - split; [eauto | exists []; rewrite app_nil_r; split; reflexivity].
Qed.

Lemma pr_emit_holds m o e : preserves (holds_model m o) (emit e).
Proof. apply pr_modify; auto. Qed.

Lemma pr_eval_batches_holds m o itr bs q r dl dp :
  preserves (holds_model m o) (eval_batches itr bs q r dl dp).
Proof.
  revert itr q r dl dp; induction bs as [|b bs IH]; intros itr q r dl dp;
    simpl; step_m; apply pr_emit_holds.
Qed.

Lemma pr_eval_holds m o : preserves (holds_model m o) eval.
Proof.
  unfold Trainer.eval; step_m; [apply pr_eval_batches_holds | apply pr_emit_holds].
Qed.

Lemma eo_eval : emits_only eval_event_ok eval.
Proof.
  unfold Trainer.eval; apply eo_bind; [apply eo_gets|]; intros bs.
  apply eo_bind; [apply eo_eval_batches; simpl; auto|].
  intros [dl dp]; apply eo_emit; exact I.
Qed.

Lemma eval_answers_batch_raises a l :
  eval (trainer_ex (ModelConst LM_ANSWERS) [BatchA a l])
  = (Err TypeError, trainer_ex (ModelConst LM_ANSWERS) [BatchA a l]).
Proof. reflexivity. Qed.

Lemma pr_save_model_opt o : preserves (fun s => optimizer s = o) save_model.
Proof.
  unfold Trainer.save_model, _save_dir, _ensure_path; step_m;
    apply pr_modify; auto.
Qed.

Lemma decompose_from_unbound m b a l q r :
  decompose m b None None = Ok (a, l, q, r) ->
  q = None \/ r = None.
Proof.
  unfold decompose.
  destruct (model_is m LM_ANSWERS);
    [destruct b; intros H; inversion H; auto|].
  destruct (model_is m LM_QUESTION_ANSWERS);
    [destruct b; intros H; inversion H; auto | discriminate].
Qed.

(** The inner loop of [train] starts with [quesion_seqs] and [review_seqs]
    unbound, and the dispatch never binds both of them: the first batch
    raises and the state is left as it was. *)
Lemma train_batches_fail_on_first_batch itr b bs st :
  train_batches itr (b :: bs) None None st
  = (Err (match decompose (model st) b None None with
          | Ok _ => UnboundLocalError
          | Err e => e
          end), st).
Proof.
  simpl; unfold bind, gets, lift.
  destruct (decompose (model st) b None None) as [[[[a l] q] r]|e] eqn:E;
    [|reflexivity].
  destruct (decompose_from_unbound _ _ _ _ _ _ E) as [-> | ->]; [reflexivity|].
  destruct q; reflexivity.
Qed.

Lemma tb_unbound_outcome itr bs st :
  (bs = [] /\ train_batches itr bs None None st = (Ok (None, None), st)) \/
  (exists e, train_batches itr bs None None st = (Err e, st)).
Proof.
  destruct bs as [|b bs]; [left; split; reflexivity|right].
  rewrite train_batches_fail_on_first_batch; eauto.
Qed.

Lemma train_epochs_first_epoch_keeps_optimizer rest st :
  optimizer (snd (train_epochs (0%Z :: rest) None None st)) = optimizer st.
Proof.
  simpl; unfold bind at 1, emit, modify; simpl.
  set (st1 := set_trace (trace st ++ [EvLog (LogEpoch 0)]) st).
  change (optimizer st) with (optimizer st1).
  unfold bind at 1, gets.
  unfold bind at 1.
  destruct (tb_unbound_outcome 0 (dataloader st1) st1) as [[_ E]|[e E]];
    rewrite E; [|reflexivity].
  unfold bind at 1, gets, bind at 1, lift, py_mod_is0.
  destruct (Z.eqb (save_model_every st1) 0); [reflexivity|].
  rewrite Zmod_0_l; simpl.
  unfold bind at 1.
  pose proof (pr_save_model_opt (optimizer st1) st1 eq_refl) as Ho.
  destruct (save_model_outcome st1) as [[e He] _].
  destruct (Trainer.save_model BASE_PATH st1) as [[u|e'] st2]; simpl in *;
    [discriminate | exact Ho].
Qed.

(** C2 (code bug): no run of [train] installs the decayed rate.  Every run
    with at least one epoch raises by the end of epoch 0, before the decay
    test of line 116 (at its first batch, or in [save_model], since
    [0 % save_model_every == 0]), so [train] ends holding either the
    optimizer it found or the undecayed [SGD(lr = LR * 1.0)] of line 90.
    With [DECAY_START_EPOCH = 0], a run enters the decay epoch and ends,
    raising, with rate [LR] instead of [LR * LR_DECAY]. *)
Theorem train_never_decays_learning_rate :
  (forall st,
     optimizer (snd (train st)) = optimizer st \/
     exists p, params st = Some p /\
               optimizer (snd (train st)) = Some (mkSGD (LR p * 1))) /\
  DECAY_START_EPOCH params_ex = 0%Z /\
  (LR params_ex * 1 <> LR params_ex * LR_DECAY params_ex)%R /\
  fst (train (trainer_ex lm_ex [])) = Err TypeError /\
  In (EvLog (LogEpoch 0)) (trace (snd (train (trainer_ex lm_ex [])))) /\
  optimizer (snd (train (trainer_ex lm_ex []))) = Some (mkSGD (LR params_ex * 1)).
Proof.
  split; [|split; [reflexivity|split; [simpl; lra|split; [reflexivity|
          split; [simpl; auto | reflexivity]]]]].
  intros st.
  unfold Trainer.train, _set_optimizer, param, bind, gets, lift, modify, ret, raise;
    simpl.
  destruct (model_parameters (model st)) as [[]|err]; simpl; [|left; reflexivity].
  destruct (params st) as [p|] eqn:Ep; simpl; [|left; reflexivity].
  right; exists p; split; [reflexivity|].
  rewrite Ep; simpl.
  destruct (Z.le_gt_cases (EPOCHS p) 0) as [Hle|Hgt].
  - replace (py_range (EPOCHS p)) with (@nil Z)
      by (unfold py_range; destruct (EPOCHS p); simpl; reflexivity || lia).
    reflexivity.
  - rewrite (py_range_pos (EPOCHS p) ltac:(lia)).
    apply train_epochs_first_epoch_keeps_optimizer.
Qed.

(** C3 (code bug): the third test of the variant dispatch repeats
    [C.LM_QUESTION_ANSWERS], so a [QUESTION_ANSWERS_REVIEWS] batch is never
    unpacked: the dispatch raises, in [eval] and in the batch loop of
    [train], on the first such batch, and its question and review sequences
    are never passed to the model.  An [ANSWERS_ONLY] batch does not reach
    the model either: [_var] applied to the already converted answers
    (line 134) raises [TypeError]. *)
Theorem qar_batch_never_decomposed a l q r :
  decompose (ModelConst LM_QUESTION_ANSWERS_REVIEWS) (BatchQAR a l q r) None None
    = Err TypeError /\
  eval (trainer_ex (ModelConst LM_QUESTION_ANSWERS_REVIEWS) [BatchQAR a l q r])
    = (Err TypeError,
       trainer_ex (ModelConst LM_QUESTION_ANSWERS_REVIEWS) [BatchQAR a l q r]) /\
  train_batches 0 [BatchQAR a l q r] None None
      (trainer_ex (ModelConst LM_QUESTION_ANSWERS_REVIEWS) [])
    = (Err TypeError, trainer_ex (ModelConst LM_QUESTION_ANSWERS_REVIEWS) []) /\
  eval (trainer_ex (ModelConst LM_ANSWERS) [BatchA a l])
    = (Err TypeError, trainer_ex (ModelConst LM_ANSWERS) [BatchA a l]).
Proof.
  split; [reflexivity|]; split; [reflexivity|]; split; [reflexivity|].
  apply eval_answers_batch_raises.
Qed.

(** C7 (code bug): [__init__] discards [dev_loader] (two trainers built with
    different dev loaders are equal), so [eval] iterates [self.dataloader],
    the training loader: a batch of that loader is the one [eval] draws, and
    an empty training loader gives a [Development] report over no batch.
    The read-only part holds: [eval] makes no gradient step and no model
    call with teacher forcing, and leaves [self.model] and
    [self.optimizer] unchanged; the drawn batch never reaches the model,
    since line 134 applies [_var] a second time and raises. *)
Theorem eval_iterates_training_loader :
  (forall dl p seed sme pe d1 d2 v now dirs tr,
     Trainer_init dl p seed sme pe d1 v now dirs tr
     = Trainer_init dl p seed sme pe d2 v now dirs tr) /\
  emits_only eval_event_ok eval /\
  (forall st, holds_model (model st) (optimizer st) (snd (eval st))) /\
  (forall a l,
     eval (trainer_ex (ModelConst LM_ANSWERS) [BatchA a l])
     = (Err TypeError, trainer_ex (ModelConst LM_ANSWERS) [BatchA a l])) /\
  eval (trainer_ex (ModelConst LM_ANSWERS) [])
  = (Ok tt, set_trace [EvLog (LogInfo 1 "Development" [] [])]
              (trainer_ex (ModelConst LM_ANSWERS) [])).
Proof.
  split; [reflexivity|]; split; [apply eo_eval|]; split.
  - intros st; apply pr_eval_holds; split; reflexivity.
  - split; [apply eval_answers_batch_raises | reflexivity].
Qed.

(** C9, as amended: when [self.model] is none of the three variants, the
    dispatch raises on the first batch drawn, before that batch is trained:
    [eval] raises [TypeError] on a non-empty loader with no effect at all,
    and [train] (with at least one epoch, or no hyperparameters) raises
    without training any batch; a pass that draws no batch raises nothing:
    [eval] on an empty loader returns normally. *)
Theorem unknown_variant_raises_on_first_batch (st : trainer) :
  unknown_variant (model st) ->
  match dataloader st with
  | [] => fst (eval st) = Ok tt
  | b :: bs =>
      eval st = (Err TypeError, st) /\
      (match params st with Some p => (1 <= EPOCHS p)%Z | None => True end ->
       (exists e, fst (train st) = Err e) /\ quiet st (snd (train st)))
  end.
Proof.
  intros Hu; destruct (dataloader st) as [|b bs] eqn:Hd.
  - rewrite (eval_empty st Hd); reflexivity.
  - split; [exact (eval_unknown_nonempty st b bs Hu Hd)|].
    exact (train_unknown_nonempty st b bs Hu Hd).
Qed.

(** C10, as amended: right after [__init__], [self.model], [self.optimizer]
    and [self.params] are [None]; the first [train] and [train_batch] raise
    [AttributeError] on [None]; [eval] raises the unimplemented-model error
    on the first batch ([None] matches no variant) and returns normally when
    the loader is empty. *)
Theorem init_leaves_fields_none dl p seed sme pe dev v now dirs tr :
  let st := Trainer_init dl p seed sme pe dev v now dirs tr in
  model st = ModelNone /\ optimizer st = None /\ params st = None /\
  fst (train st) = Err AttributeError /\
  (forall q r a l, fst (train_batch q r a l st) = Err AttributeError) /\
  fst (eval st) = match dl with [] => Ok tt | _ :: _ => Err TypeError end.
Proof.
  intros st; split; [reflexivity|]; split; [reflexivity|]; split; [reflexivity|].
  split; [reflexivity|]; split; [intros; reflexivity|].
  destruct dl as [|b bs].
  - rewrite (eval_empty st eq_refl); reflexivity.
  - assert (Hu : unknown_variant (model st)) by (repeat split).
    rewrite (eval_unknown_nonempty st b bs Hu eq_refl); reflexivity.
Qed.

End Proofs.

(** ** Witnesses and counterexamples *)

(** C4 at a trainer holding a network and empty histories. *)
Lemma perplexity_is_pow2_of_loss_witness :
  history_ok (trainer_ex lm_ex [BatchA answers_ex [2%Z]]) /\
  history_ok (snd (train forward_ex nll_loss np_random_ex "models"
                     (trainer_ex lm_ex [BatchA answers_ex [2%Z]]))).
Proof.
  split; [reflexivity|].
  exact (proj1 (perplexity_is_pow2_of_loss forward_ex nll_loss np_random_ex
                  "models" (trainer_ex lm_ex [BatchA answers_ex [2%Z]]) eq_refl)).
Defined.

(** C9 fails as stated: with [self.model] none of the variants and an empty
    loader, [eval] returns normally. *)
Lemma unknown_variant_eval_returns :
  unknown_variant ModelNone /\
  fst (eval forward_ex nll_loss (trainer_ex ModelNone [])) = Ok tt.
Proof. split; [repeat split | reflexivity]. Qed.

(** C9, amended, at [self.model = None] and a one-batch loader. *)
Lemma unknown_variant_raises_on_first_batch_witness :
  unknown_variant ModelNone /\
  eval forward_ex nll_loss (trainer_ex ModelNone [BatchA answers_ex [2%Z]])
    = (Err TypeError, trainer_ex ModelNone [BatchA answers_ex [2%Z]]).
Proof.
  assert (Hu : unknown_variant ModelNone) by (repeat split).
  split; [exact Hu|].
  exact (proj1 (unknown_variant_raises_on_first_batch forward_ex nll_loss
                  np_random_ex "models"
                  (trainer_ex ModelNone [BatchA answers_ex [2%Z]]) Hu)).
Defined.

(** C10 fails as stated: [eval] on a freshly constructed trainer with an
    empty loader returns normally, without touching [None]. *)
Lemma fresh_trainer_eval_returns :
  fst (eval forward_ex nll_loss
         (Trainer_init [] params_ex 1 1 100 None None clock_ex [] [])) = Ok tt.
Proof. reflexivity. Qed.


(** ** Further properties of the trainer *)

(** X2: An empty batch has loss [0] when the model produced timesteps, and
    raises [ZeroDivisionError] when it produced none. *)
Theorem batch_loss_empty_batch c outs tg :
  _batch_loss c outs [] tg
  = match outs with [] => Err ZeroDivisionError | _ :: _ => Ok 0%R end.
Proof.
  destruct outs as [|o os]; [reflexivity|].
  unfold _batch_loss, div_len; simpl; f_equal; unfold Rdiv; apply Rmult_0_l.
Qed.

(** X3: [_set_optimizer] computes the rate from the configured [LR] only: calling
    it again after an earlier call gives the state the later call alone
    gives, so decays never compound. *)
Theorem set_optimizer_does_not_compound d d' st :
  snd (_set_optimizer d (snd (_set_optimizer d' st))) = snd (_set_optimizer d st).
Proof.
  unfold _set_optimizer, param, bind, gets, lift, modify, ret, raise; simpl.
  destruct (model_parameters (model st)) eqn:Em; simpl; [|rewrite Em; reflexivity].
  destruct (params st) eqn:Ep; simpl; rewrite Em; simpl; rewrite Ep; reflexivity.
Qed.

Section Extras.

Context (forward :
  py_model -> option seqs -> option reviews -> seqs -> bool -> result outputs).
Context (criterion : criterion_t) (np_random : Z -> nat -> R) (BASE_PATH : string).

Local Abbreviation train_batch := (train_batch forward criterion np_random).
Local Abbreviation save_model := (save_model BASE_PATH).
Local Abbreviation train_batches := (train_batches forward criterion np_random).
Local Abbreviation train_epochs := (train_epochs forward criterion np_random BASE_PATH).
Local Abbreviation train := (train forward criterion np_random BASE_PATH).
Local Abbreviation eval_batches := (eval_batches forward criterion).
Local Abbreviation eval := (eval forward criterion).

Lemma eo_nw_save_model : emits_only no_batch_work save_model.
Proof.
  intros st; destruct (save_model_outcome BASE_PATH st) as [_ [x [E F]]].
  exists x; split; [exact E|].
  apply Forall_forall; intros e He; unfold no_batch_work.
  rewrite forallb_forall in F; specialize (F e He).
  destruct e; simpl in *; congruence.
Qed.

Lemma eo_nw_decay_branch : emits_only no_batch_work decay_branch.
Proof.
  unfold decay_branch; step_m; apply eo_modify; reflexivity.
Qed.

Lemma eo_nw_train_epochs es : emits_only no_batch_work (train_epochs es None None).
Proof.
  induction es as [|ep es IH]; simpl; [apply eo_ret|].
  apply eo_bind; [apply eo_emit; reflexivity|intros _].
  apply eo_bind; [apply eo_gets|intros bs].
  apply (eo_bind_dep _ (fun x => x = (None, None))).
  - intros st; destruct (tb_unbound_outcome forward criterion np_random 0 bs st) as [[_ E]|[e E]];
      (exists []; rewrite E, app_nil_r; split; auto).
  - intros st; destruct (tb_unbound_outcome forward criterion np_random 0 bs st) as [[_ E]|[e E]];
      rewrite E; simpl; auto.
  - intros x ->; step_m; auto using eo_nw_save_model, eo_nw_decay_branch.
Qed.

(** X6: [train] never trains a batch, whatever the trainer holds: no gradient
    reset, model call, backward pass or optimizer step ever happens. *)
Theorem train_never_trains st : quiet st (snd (train st)).
Proof.
  assert (H : emits_only no_batch_work train).
  { unfold Trainer.train; step_m; apply eo_nw_train_epochs. }
  destruct (H st) as [x [E F]]; exists x; split; [exact E|].
  apply forallb_forall; intros e He.
  rewrite Forall_forall in F; unfold no_batch_work in F.
  rewrite (F e He); reflexivity.
Qed.

Lemma train_epochs_first_epoch_fails rest st :
  exists e, fst (train_epochs (0%Z :: rest) None None st) = Err e.
Proof.
  simpl; unfold bind at 1, emit, modify; simpl.
  set (st1 := set_trace (trace st ++ [EvLog (LogEpoch 0)]) st).
  unfold bind at 1, gets.
  unfold bind at 1.
  destruct (tb_unbound_outcome forward criterion np_random 0 (dataloader st1) st1) as [[_ E]|[e E]];
    rewrite E; [|simpl; eauto].
  unfold bind at 1, gets, bind at 1, lift, py_mod_is0.
  destruct (Z.eqb (save_model_every st1) 0); [simpl; eauto|].
  rewrite Zmod_0_l; simpl.
  unfold bind at 1.
  destruct (save_model_outcome BASE_PATH st1) as [[e He] _].
  destruct (Trainer.save_model BASE_PATH st1) as [[u|e'] st2]; simpl in *;
    [discriminate | eauto].
Qed.

(** X7: [train] returns normally exactly when [self.model] is a network,
    [self.params] is set and [EPOCHS <= 0]; with at least one epoch it
    always raises, at the first batch or at the checkpoint after epoch 0. *)
Theorem train_returns_iff st :
  fst (train st) = Ok tt <->
  (exists p, params st = Some p /\ (EPOCHS p <= 0)%Z) /\
  model_parameters (model st) = Ok tt.
Proof.
  unfold Trainer.train, _set_optimizer, param, bind, gets, lift, modify, ret, raise;
    simpl.
  destruct (model_parameters (model st)) as [[]|err] eqn:Em; simpl;
    [|split; [discriminate | intros [_ H]; discriminate]].
  destruct (params st) as [p|] eqn:Ep; simpl;
    [|split; [discriminate | intros [[p [H _]] _]; discriminate]].
  rewrite Ep; simpl.
  destruct (Z.le_gt_cases (EPOCHS p) 0) as [Hle|Hgt].
  - replace (py_range (EPOCHS p)) with (@nil Z)
      by (unfold py_range; destruct (EPOCHS p); simpl; reflexivity || lia).
    simpl; split; [intros _; split; [exists p; split; [reflexivity | exact Hle] | reflexivity]
                  | reflexivity].
  - rewrite (py_range_pos (EPOCHS p) ltac:(lia)).
    destruct (train_epochs_first_epoch_fails
                (map Z.of_nat (seq 1 (Z.to_nat (EPOCHS p) - 1)))
                (set_optimizer (Some (mkSGD (LR p * 1))) st)) as [e He].
    rewrite He; split; [discriminate|].
    intros [[p' [Hp' Hle]] _]; inversion Hp'; subst; lia.
Qed.


(** X8: [train_batch] never reaches the model: without an optimizer it raises
    [AttributeError] at [self.optimizer.zero_grad()] and changes nothing;
    with one it zeroes the gradients and raises [TypeError] by line 69 at the
    latest, where [_var] is applied to the already wrapped answers. No random
    draw, model call, backward pass or optimizer step happens. *)
Theorem train_batch_never_calls_model q r a l st :
  train_batch q r a l st =
  match optimizer st with
  | None => (Err AttributeError, st)
  | Some _ => (Err TypeError, set_trace (trace st ++ [EvZeroGrad]) st)
  end.
Proof.
  unfold Trainer.train_batch; cbv [bind gets lift ret raise emit modify
    optimizer_call _var_opt _var py_map_var]; simpl.
  destruct (optimizer st); [simpl|reflexivity].
  destruct (model_is (model st) LM_ANSWERS), (model_is (model st) LM_QUESTION_ANSWERS_REVIEWS),
    q, r; reflexivity.
Qed.


Lemma ea_bind P Q {A B} (m : M A) (k : A -> M B) :
  emits_at P Q m -> (forall a, emits_at P Q (k a)) -> emits_at P Q (bind m k).
Proof.
  intros Hm Hk st HP; unfold bind.
  destruct (Hm st HP) as [HP1 [x1 [E1 F1]]].
  destruct (m st) as [[a|e] st1]; simpl in *; [|eauto].
  destruct (Hk a st1 HP1) as [HP2 [x2 [E2 F2]]]; split; [exact HP2|].
  exists (x1 ++ x2); rewrite E2, E1, app_assoc; split;
    [reflexivity | apply Forall_app; auto].
Qed.

Lemma ea_bind_dep P Q {A B} (Pr : A -> Prop) (m : M A) (k : A -> M B) :
  emits_at P Q m -> returns Pr m -> (forall a, Pr a -> emits_at P Q (k a)) ->
  emits_at P Q (bind m k).
Proof.
  intros Hm Hr Hk st HP; unfold bind.
  destruct (Hm st HP) as [HP1 [x1 [E1 F1]]]; specialize (Hr st).
  destruct (m st) as [[a|e] st1]; simpl in *; [|eauto].
  destruct (Hk a Hr st1 HP1) as [HP2 [x2 [E2 F2]]]; split; [exact HP2|].
  exists (x1 ++ x2); rewrite E2, E1, app_assoc; split;
    [reflexivity | apply Forall_app; auto].
Qed.

Lemma ea_pure P Q {A} (m : M A) :
  (forall st, snd (m st) = st) -> emits_at P Q m.
Proof.
  intros H st HP; rewrite H; split; [exact HP|].
  exists []; rewrite app_nil_r; auto.
Qed.

Lemma ea_ret P Q {A} (a : A) : emits_at P Q (ret a).
Proof. apply ea_pure; reflexivity. Qed.

Lemma ea_lift P Q {A} (r : result A) : emits_at P Q (lift r).
Proof. apply ea_pure; reflexivity. Qed.

Lemma ea_gets P Q {A} (f : trainer -> A) : emits_at P Q (gets f).
Proof. apply ea_pure; reflexivity. Qed.

Lemma ea_emit_model m0 Q e :
  Q e -> emits_at (fun st => model st = m0) Q (emit e).
Proof. intros H st HP; split; [exact HP | exists [e]; auto]. Qed.

Lemma ea_bind_gets_eq P Q {A B} (f : trainer -> A) (a0 : A) (k : A -> M B) :
  (forall st, P st -> f st = a0) -> emits_at P Q (k a0) ->
  emits_at P Q (bind (gets f) k).
Proof.
  intros Hf Hk st HP; unfold bind, gets; simpl; rewrite (Hf st HP); apply Hk, HP.
Qed.

Lemma ea_bind_lift_eq P Q {A B} (r : result A) (k : A -> M B) :
  (forall a, r = Ok a -> emits_at P Q (k a)) -> emits_at P Q (bind (lift r) k).
Proof.
  intros Hk st HP; unfold bind, lift; destruct r as [a|e]; simpl.
  - apply (Hk a eq_refl st HP).
  - split; [exact HP | exists []; rewrite app_nil_r; auto].
Qed.

Lemma rt_ret {A} (Pr : A -> Prop) a : Pr a -> returns Pr (ret a).
Proof. intros H st; exact H. Qed.

Lemma decompose_ok_not_qar m b q r x :
  decompose m b q r = Ok x -> model_is m LM_QUESTION_ANSWERS_REVIEWS = false.
Proof.
  unfold decompose, model_is; destruct m as [|s|]; try reflexivity.
  destruct (String.eqb_spec s LM_ANSWERS) as [->|];
    [reflexivity|].
  destruct (String.eqb_spec s LM_QUESTION_ANSWERS) as [->|];
    [reflexivity | discriminate].
Qed.

Lemma ea_eval_batches m0 itr bs q r dl dp :
  emits_at (fun st => model st = m0) (fwd_args_ok m0)
    (eval_batches itr bs q r dl dp).
Proof.
  revert itr q r dl dp; induction bs as [|b bs IH]; intros itr q r dl dp.
  - apply ea_ret.
  - simpl; apply (ea_bind_gets_eq _ _ _ m0); [auto|].
    apply ea_bind_lift_eq; intros [[[a l] q'] r'] Ed.
    lazy beta iota; apply ea_bind_lift_eq; intros av Hav; injection Hav as <-.
    apply (ea_bind_dep _ _
             (fun x : option (tensor seqs) => x = None <-> model_is m0 LM_ANSWERS = true)).
    { destruct (model_is m0 LM_ANSWERS);
        repeat (apply ea_bind; [apply ea_lift|intro]); apply ea_ret. }
    { destruct (model_is m0 LM_ANSWERS) eqn:Ea.
      - apply rt_ret; split; auto.
      - repeat (apply rt_bind; intro); apply rt_ret; split; discriminate. }
    intros qs Hqs.
    rewrite (decompose_ok_not_qar _ _ _ _ _ Ed).
    apply (ea_bind_dep _ _ (fun x : option reviews => x = None));
      [apply ea_ret | apply rt_ret; reflexivity|].
    intros rs Hrs.
    apply ea_bind_lift_eq; intros tv Htv; discriminate.
Qed.

(** X9: Every model call [eval] makes passes no review sequences and no teacher
    forcing, and passes question sequences unless [self.model] is
    [C.LM_ANSWERS]; [eval] leaves [self.model] as it was. *)
Theorem eval_model_call_arguments st :
  model (snd (eval st)) = model st /\
  exists extra, trace (snd (eval st)) = trace st ++ extra /\
                Forall (fwd_args_ok (model st)) extra.
Proof.
  assert (H : emits_at (fun st' => model st' = model st) (fwd_args_ok (model st)) eval).
  { unfold Trainer.eval; apply ea_bind; [apply ea_gets|intros bs].
    apply ea_bind; [apply ea_eval_batches|intros [dl dp]].
    apply ea_emit_model; exact I. }
  exact (H st eq_refl).
Qed.


Lemma eval_batches_first_batch_raises itr b bs q r dl dp st :
  exists e, eval_batches itr (b :: bs) q r dl dp st = (Err e, st).
Proof.
  simpl; unfold bind at 1, gets; simpl.
  unfold bind at 1, lift.
  destruct (decompose (model st) b q r) as [[[[a l] q'] r']|e]; [|eauto].
  unfold bind at 1; simpl.
  unfold bind at 1.
  destruct (model_is (model st) LM_ANSWERS).
  - unfold ret; simpl; unfold bind at 1.
    destruct (model_is (model st) LM_QUESTION_ANSWERS_REVIEWS).
    + unfold bind, lift, read, ret, py_map_var; simpl.
      destruct r' as [[rs|]|]; simpl; eauto.
    + unfold ret, bind, lift; simpl; eauto.
  - unfold bind at 1, lift, read; destruct q' as [[qs|]|]; simpl; [|eauto|eauto].
    unfold bind at 1, ret; simpl; unfold bind at 1.
    destruct (model_is (model st) LM_QUESTION_ANSWERS_REVIEWS).
    + unfold bind, lift, read, ret, py_map_var; simpl.
      destruct r' as [[rs|]|]; simpl; eauto.
    + unfold ret, bind, lift; simpl; eauto.
Qed.

Lemma eval_nonempty_raises st b bs :
  dataloader st = b :: bs -> exists e, eval st = (Err e, st).
Proof.
  intros Hd; unfold Trainer.eval, bind at 1, gets; simpl; rewrite Hd.
  destruct (eval_batches_first_batch_raises 0 b bs None None [] [] st) as [e He].
  unfold bind; rewrite He; eauto.
Qed.

(** X10: With [print_every = 0], [eval] on a non-empty loader never returns: the
    first batch raises, at the latest at [batch_itr % self.print_every]
    ([ZeroDivisionError]). *)
Theorem eval_print_every_zero_raises st b bs :
  print_every st = 0%Z -> dataloader st = b :: bs ->
  exists e, fst (eval st) = Err e.
Proof.
  intros _ Hd; destruct (eval_nonempty_raises st b bs Hd) as [e He].
  rewrite He; exists e; reflexivity.
Qed.


(** X11: [eval] returns exactly when [self.dataloader] is empty, and then only
    reports an empty development set; on a non-empty loader it raises at
    the first batch, before any model call, and leaves the trainer as it
    was. *)
Theorem eval_returns_only_on_empty_loader st :
  match dataloader st with
  | [] => eval st = (Ok tt, set_trace (trace st ++ [EvLog (LogInfo 1 "Development" [] [])]) st)
  | b :: bs => exists e, eval st = (Err e, st)
  end.
Proof.
  destruct (dataloader st) as [|b bs] eqn:Hd.
  - unfold Trainer.eval, bind, gets, emit, modify, ret; simpl; rewrite Hd; reflexivity.
  - exact (eval_nonempty_raises st b bs Hd).
Qed.


Lemma str_length_app (a b : string) :
  String.length (a ++ b) = (String.length a + String.length b)%nat.
Proof. induction a as [|c a IH]; simpl; auto. Qed.

Lemma str_app_cancel (a a' b b' : string) :
  String.length a = String.length a' -> (a ++ b = a' ++ b')%string ->
  a = a' /\ b = b'.
Proof.
  revert a'; induction a as [|c a IH]; intros [|c' a'] Hl H; simpl in *;
    try discriminate; auto.
  injection Hl as Hl; injection H as -> H.
  destruct (IH a' Hl H) as [-> ->]; auto.
Qed.

Lemma digits_value_acc_app acc (a b : string) :
  digits_value_acc acc (a ++ b) = digits_value_acc (digits_value_acc acc a) b.
Proof. revert acc; induction a as [|c a IH]; intros acc; simpl; auto. Qed.

Lemma digit_value d : (0 <= d < 10)%Z ->
  (Z.of_nat (Ascii.nat_of_ascii (digit d)) - 48)%Z = d.
Proof.
  intros H; unfold digit; rewrite Ascii.nat_ascii_embedding by lia; lia.
Qed.

Lemma decimal_value f n : (0 <= n < 10 ^ Z.of_nat f)%Z ->
  digits_value (decimal f n) = n.
Proof.
  revert n; induction f as [|f IH]; intros n H; [unfold digits_value; simpl in *; lia|].
  cbn [decimal]; destruct (Z.ltb_spec n 10).
  - unfold digits_value; cbn [digits_value_acc]; rewrite digit_value by lia; lia.
  - unfold digits_value; rewrite digits_value_acc_app; fold (digits_value (decimal f (n / 10))).
    rewrite IH.
    + cbn [digits_value_acc]; rewrite digit_value by (apply Z.mod_pos_bound; lia).
      pose proof (Z.div_mod n 10); lia.
    + rewrite Nat2Z.inj_succ, Z.pow_succ_r in H by lia.
      split; [apply Z.div_pos; lia | apply Z.div_lt_upper_bound; lia].
Qed.

Lemma decimal_length f n k : (0 <= n < 10 ^ Z.of_nat k)%Z -> (1 <= k <= f)%nat ->
  (String.length (decimal f n) <= k)%nat.
Proof.
  revert n k; induction f as [|f IH]; intros n k H Hk; [lia|].
  cbn [decimal]; destruct (Z.ltb_spec n 10); [cbn [String.length]; lia|].
  rewrite str_length_app; cbn [String.length].
  destruct k as [|k]; [lia|].
  destruct k as [|k]; [simpl in H; lia|].
  assert (String.length (decimal f (n / 10)) <= S k)%nat; [|lia].
  apply IH; [|lia].
  rewrite Nat2Z.inj_succ, Z.pow_succ_r in H by lia.
  split; [apply Z.div_pos; lia | apply Z.div_lt_upper_bound; lia].
Qed.

Lemma zeros_value k : digits_value_acc 0 (zeros k) = 0%Z.
Proof. induction k as [|k IH]; simpl; auto. Qed.

Lemma zeros_length k : String.length (zeros k) = k.
Proof. induction k as [|k IH]; simpl; auto. Qed.

Lemma pad_value w n : (0 <= n < 10 ^ 20)%Z -> digits_value (pad w n) = n.
Proof.
  intros H; unfold pad, digits_value; rewrite digits_value_acc_app, zeros_value.
  apply (decimal_value 20); exact H.
Qed.

Lemma pad_length w n : (0 <= n < 10 ^ Z.of_nat w)%Z -> (1 <= w <= 20)%nat ->
  String.length (pad w n) = w.
Proof.
  intros H Hw; unfold pad; rewrite str_length_app, zeros_length.
  pose proof (decimal_length 20 n w H Hw); lia.
Qed.

Lemma pad_inj w n n' :
  (0 <= n < 10 ^ 20)%Z -> (0 <= n' < 10 ^ 20)%Z -> pad w n = pad w n' -> n = n'.
Proof.
  intros H H' E; rewrite <- (pad_value w n H), <- (pad_value w n' H'), E; reflexivity.
Qed.

Lemma pad4_length n : (0 <= n <= 9999)%Z -> String.length (pad 4 n) = 4%nat.
Proof. intros H; apply pad_length; simpl; lia. Qed.

Lemma pad2_length n : (0 <= n <= 99)%Z -> String.length (pad 2 n) = 2%nat.
Proof. intros H; apply pad_length; simpl; lia. Qed.

Lemma strftime_length t :
  valid_datetime t -> String.length (strftime t) = 19%nat.
Proof.
  intros (Hy & Hmo & Hd & Hh & Hmi & Hs & Hus).
  unfold strftime; rewrite !str_length_app; simpl String.length.
  rewrite pad4_length, !pad2_length by lia; reflexivity.
Qed.

Lemma strftime_eq_iff t t' :
  valid_datetime t -> valid_datetime t' ->
  strftime t = strftime t' <-> same_second t t'.
Proof.
  intros Ht Ht'.
  destruct Ht as (Hy & Hmo & Hd & Hh & Hmi & Hs & Hus).
  destruct Ht' as (Hy' & Hmo' & Hd' & Hh' & Hmi' & Hs' & Hus').
  split.
  - unfold strftime; intros E.
    apply str_app_cancel in E as [E1 E];
      [|rewrite !pad4_length by lia; reflexivity].
    injection E as E.
    apply str_app_cancel in E as [E2 E];
      [|rewrite !pad2_length by lia; reflexivity].
    injection E as E.
    apply str_app_cancel in E as [E3 E];
      [|rewrite !pad2_length by lia; reflexivity].
    injection E as E.
    apply str_app_cancel in E as [E4 E];
      [|rewrite !pad2_length by lia; reflexivity].
    injection E as E.
    apply str_app_cancel in E as [E5 E6];
      [|rewrite !pad2_length by lia; reflexivity].
    injection E6 as E6.
    apply pad_inj in E1, E2, E3, E4, E5, E6; try lia.
    unfold same_second; auto 6.
  - intros (E1 & E2 & E3 & E4 & E5 & E6); unfold strftime.
    rewrite E1, E2, E3, E4, E5, E6; reflexivity.
Qed.

(** X13: On timestamps of a four-digit year,
    [time.strftime('%Y-%m-%d-%H-%M-%S')] gives 19 characters, and two
    timestamps give the same string exactly when they fall in the same
    second: the format keeps every field down to the second and drops the
    microseconds. *)
Theorem strftime_fixed_width_to_the_second t t' :
  valid_datetime t -> valid_datetime t' ->
  String.length (strftime t) = 19%nat /\ (strftime t = strftime t' <-> same_second t t').
Proof.
  intros Ht Ht'; split; [apply strftime_length, Ht | apply strftime_eq_iff; assumption].
Qed.

(** X14: Two checkpoints get the same directory from [_save_dir] exactly when
    their (four-digit-year) timestamps fall in the same second. *)
Theorem save_dir_same_iff_same_second t t' st p :
  params st = Some p -> valid_datetime t -> valid_datetime t' ->
  fst (_save_dir BASE_PATH t st) = fst (_save_dir BASE_PATH t' st) <-> same_second t t'.
Proof.
  intros Hp Ht Ht'.
  unfold _save_dir, param, bind, gets, ret; simpl; rewrite Hp; simpl.
  rewrite <- (strftime_eq_iff t t' Ht Ht'); split.
  - intros E; injection E as E.
    apply str_app_cancel in E as [_ E]; [|reflexivity].
    injection E as E.
    apply str_app_cancel in E as [_ E]; [|reflexivity].
    injection E as E; exact E.
  - intros ->; reflexivity.
Qed.


Lemma pr_eval_batches_logs_only st0 itr bs q r dl dp :
  preserves (fun st => exists tr, st = set_trace tr st0)
    (eval_batches itr bs q r dl dp).
Proof.
  revert itr q r dl dp; induction bs as [|b bs IH]; intros itr q r dl dp;
    simpl; step_m; apply pr_modify; intros st [tr ->]; eexists; reflexivity.
Qed.

(** X12: [eval] changes nothing but the event log: every other field of the
    trainer, histories and optimizer included, is as before. *)
Theorem eval_changes_only_trace st :
  snd (eval st) = set_trace (trace (snd (eval st))) st.
Proof.
  assert (H : preserves (fun s => exists tr, s = set_trace tr st) eval).
  { unfold Trainer.eval; step_m; [apply pr_eval_batches_logs_only|].
    apply pr_modify; intros s [tr ->]; eexists; reflexivity. }
  assert (H0 : exists tr, st = set_trace tr st)
    by (exists (trace st); destruct st; reflexivity).
  destruct (H st H0) as [tr E].
  rewrite E at 2; simpl; exact E.
Qed.

End Extras.


(** [eval] with [print_every = 0] on a one-batch loader. *)
Lemma eval_print_every_zero_raises_witness :
  let st := trainer_pe0_ex (ModelConst LM_ANSWERS) [BatchA answers_ex [2%Z]] in
  print_every st = 0%Z /\ dataloader st = [BatchA answers_ex [2%Z]] /\
  exists e, fst (eval forward_ex nll_loss st) = Err e.
Proof.
  split; [reflexivity | split; [reflexivity|]].
  apply (eval_print_every_zero_raises forward_ex nll_loss _ (BatchA answers_ex [2%Z]) []);
    reflexivity.
Defined.

(** Two timestamps half a second apart print the same. *)
Lemma strftime_fixed_width_to_the_second_witness :
  valid_datetime clock_ex /\ valid_datetime clock_half_ex /\
  String.length (strftime clock_ex) = 19%nat /\
  strftime clock_ex = strftime clock_half_ex.
Proof.
  assert (H1 : valid_datetime clock_ex) by (unfold valid_datetime; simpl; lia).
  assert (H2 : valid_datetime clock_half_ex) by (unfold valid_datetime; simpl; lia).
  destruct (strftime_fixed_width_to_the_second clock_ex clock_half_ex H1 H2) as [L E].
  split; [exact H1 | split; [exact H2 | split; [exact L|]]].
  apply E; unfold same_second; simpl; repeat split.
Defined.

(** Checkpoints half a second apart share a directory; one second apart they
    do not. *)
Lemma save_dir_same_iff_same_second_witness :
  params (trainer_ex lm_ex []) = Some params_ex /\
  valid_datetime clock_ex /\ valid_datetime clock_half_ex /\
  valid_datetime clock_next_ex /\
  fst (_save_dir "models" clock_ex (trainer_ex lm_ex []))
  = fst (_save_dir "models" clock_half_ex (trainer_ex lm_ex [])) /\
  fst (_save_dir "models" clock_ex (trainer_ex lm_ex []))
  <> fst (_save_dir "models" clock_next_ex (trainer_ex lm_ex [])).
Proof.
  assert (H1 : valid_datetime clock_ex) by (unfold valid_datetime; simpl; lia).
  assert (H2 : valid_datetime clock_half_ex) by (unfold valid_datetime; simpl; lia).
  assert (H3 : valid_datetime clock_next_ex) by (unfold valid_datetime; simpl; lia).
  split; [reflexivity | split; [exact H1 | split; [exact H2 | split; [exact H3|]]]].
  split.
  - apply (save_dir_same_iff_same_second "models" clock_ex clock_half_ex _ params_ex);
      [reflexivity | exact H1 | exact H2 |].
    unfold same_second; simpl; repeat split.
  - intros E.
    apply (save_dir_same_iff_same_second "models" clock_ex clock_next_ex _ params_ex)
      in E; [|reflexivity | exact H1 | exact H3].
    destruct E as (_ & _ & _ & _ & _ & E); discriminate.
Defined.

End Trainer.
